(** * pyDD: the DeepDetect HTTP client [pydd/utils/dd_client.py]

    A shallow embedding of the [DD] client class and of the part of the
    [requests] library it calls, followed by the properties of the request
    and response mapping layer.

    Python objects are modelled by [Py.value]; a method of the client is a
    computation in a state-and-exception monad whose state holds the client
    object ([self]) and the list of HTTP requests issued so far. *)

From stdpp Require Import base option list strings gmap pretty.
From Stdlib Require Import ZArith Lia.

Local Open Scope string_scope.
Local Open Scope list_scope.
Local Open Scope Z_scope.
Local Set Warnings "-register-all".

(** ** Python values, exceptions and computations *)

Module Py.

(** The Python objects that travel through the client: [None], booleans,
    integers, strings, lists and dictionaries with string keys. *)
Inductive value : Type :=
| None_
| Bool (b : bool)
| Int (z : Z)
| Str (s : string)
| List (l : list value)
| Dict (d : gmap string value).

(** Truth value testing, as [if x:] does it. *)
Definition truthy (v : value) : bool :=
  match v with
  | None_ => false
  | Bool b => b
  | Int z => negb (z =? 0)
  | Str s => negb (String.eqb s "")
  | List l => negb (Nat.eqb (length l) 0)
  | Dict d => negb (Nat.eqb (size d) 0)
  end.

(** A dictionary display [{k1: v1, ..., kn: vn}]: the items are stored from
    left to right, a later item replacing an earlier one with the same key. *)
Definition dict (items : list (string * value)) : gmap string value :=
  foldl (fun d kv => <[kv.1 := kv.2]> d) ∅ items.

(** [str(n)] and the [%d] conversion of an integer: its decimal numeral. *)
Definition str (n : Z) : string := pretty n.

(** The exceptions that leave the client. *)
Inductive exception : Type :=
| KeyError (key : string)
| AssertionError
| ValueError
| RequestException (why : string)
| HTTPError (status_code : Z) (body : string).

(** The outcome of a call: the returned object or the raised exception. *)
Inductive result (A : Type) : Type :=
| Return (a : A)
| Raise (e : exception).
Arguments Return {A} a.
Arguments Raise {A} e.

(** A computation over a state [S]. An exception keeps the state reached
    when it was raised, as a Python object keeps the attributes assigned
    before a [raise]. *)
Definition M (S A : Type) : Type := S -> result A * S.

Definition raise {S A : Type} (e : exception) : M S A :=
  fun s => (Raise e, s).

Definition gets {S A : Type} (f : S -> A) : M S A :=
  fun s => (Return (f s), s).

Definition modify {S : Type} (f : S -> S) : M S unit :=
  fun s => (Return tt, f s).

#[global] Instance M_ret {S : Type} : MRet (M S) :=
  fun A a s => (Return a, s).

#[global] Instance M_bind {S : Type} : MBind (M S) :=
  fun A B k m s =>
    match m s with
    | (Return a, s') => k a s'
    | (Raise e, s') => (Raise e, s')
    end.

(** [assert b] *)
Definition assert {S : Type} (b : bool) : M S unit :=
  if b then mret tt else raise AssertionError.

(** [d[k]] *)
Definition getitem {S V : Type} (d : gmap string V) (k : string) : M S V :=
  match d !! k with
  | Some v => mret v
  | None => raise (KeyError k)
  end.

End Py.

(** ** The part of the [requests] library the client calls *)

Module requests.

Inductive verb : Type := GET | PUT | POST | DELETE.

(** What one call of the library puts on the wire: the HTTP method, the
    URL, the value of each keyword argument ([None] when it is not given). *)
Record Request : Type := {
  method : verb;
  url : string;
  params : Py.value;
  data : Py.value;
  json : Py.value;
  timeout : Py.value
}.

Record Response : Type := {
  status_code : Z;
  text : string
}.

(** The call ends with a response or with a transport failure (connection
    refused, timeout elapsed). *)
Inductive reply : Type :=
| Answered (r : Response)
| Failed (why : string).

(** What lies outside the program: the server behind the network, which
    answers a request knowing the requests sent before it, and the JSON
    decoder of the library. *)
Class Outside : Type := {
  transmit : list Request -> Request -> reply;
  json_loads : string -> option Py.value
}.

(** [requests.request(method, url, params=, data=, json=, timeout=)]: the
    request is sent, and the call returns the response or raises. *)
Definition request `{W : Outside} (m : verb) (url : string)
    (params data json timeout : Py.value) : Py.M (list Request) Response :=
  fun sent =>
    let rq := {| method := m; url := url; params := params; data := data;
                 json := json; timeout := timeout |} in
    match transmit sent rq with
    | Answered r => (Py.Return r, sent ++ [rq])
    | Failed why => (Py.Raise (Py.RequestException why), sent ++ [rq])
    end.

Definition get `{W : Outside} (url : string) (params data json timeout : Py.value) :=
  request GET url params data json timeout.

Definition put `{W : Outside} (url : string) (params data json timeout : Py.value) :=
  request PUT url params data json timeout.

Definition post `{W : Outside} (url : string) (params data json timeout : Py.value) :=
  request POST url params data json timeout.

Definition delete `{W : Outside} (url : string) (params data json timeout : Py.value) :=
  request DELETE url params data json timeout.

(** [Response.raise_for_status()] raises [HTTPError] for the 4xx client
    errors and the 5xx server errors, and [Response.ok] is true when it
    does not raise. *)
Definition is_error_status (code : Z) : bool :=
  (400 <=? code) && (code <? 600).

Definition ok (r : Response) : bool :=
  negb (is_error_status (status_code r)).

Definition raise_for_status {S : Type} (r : Response) : Py.M S unit :=
  if is_error_status (status_code r)
  then Py.raise (Py.HTTPError (status_code r) (text r))
  else mret tt.

(** [Response.json()]: the decoded body, [ValueError] when the body is not
    a JSON document. *)
Definition Response_json `{W : Outside} {S : Type} (r : Response) : Py.M S Py.value :=
  match json_loads (text r) with
  | Some v => mret v
  | None => Py.raise Py.ValueError
  end.

End requests.

(** ** The client: module constants *)

(** 24h (86400 sec) call maximum *)
Definition DD_TIMEOUT : Z := 86400.

Definition API_METHODS_URL : gmap string (gmap string string) :=
  {[ "0.1" := {[ "info" := "/info";
                 "services" := "/services";
                 "train" := "/train";
                 "predict" := "/predict" ]} ]}.

(** ** The client: class [DD] *)

Module DD.

(** return types *)
Definition RETURN_JSON : Z := 0.
Definition RETURN_TEXT : Z := 1.
Definition RETURN_NONE : Z := 2.

Definition __HTTP : Z := 0.
Definition __HTTPS : Z := 1.

(** The attributes of an instance. *)
Record t : Type := {
  apiversion : string;
  __urls : gmap string string;
  __host : string;
  __port : Z;
  __proto : Z;
  __returntype : Z;
  __ddurl : string
}.

(** The state a method runs in: the instance it is called on and the
    requests sent so far. *)
Record state : Type := {
  self : t;
  wire : list requests.Request
}.

(** A call of the library, run from a method. *)
Definition on_wire {A : Type} (m : Py.M (list requests.Request) A) : Py.M state A :=
  fun st =>
    let (r, sent) := m (wire st) in
    (r, {| self := self st; wire := sent |}).

(** [self.__returntype = f] *)
Definition assign_returntype (f : Z) (st : state) : state :=
  {| self := {| apiversion := apiversion (self st);
                __urls := __urls (self st);
                __host := __host (self st);
                __port := __port (self st);
                __proto := __proto (self st);
                __returntype := f;
                __ddurl := __ddurl (self st) |};
     wire := wire st |}.

(** [DD(host="localhost", port=8080, proto=0, apiversion="0.1")]: an
    argument that is not given is [None] here and takes its default. *)
Definition __init__ (host : option string) (port proto : option Z)
    (apiversion : option string) : Py.M (list requests.Request) t :=
  let host := default "localhost" host in
  let port := default 8080 port in
  let proto := default 0 proto in
  let apiversion := default "0.1" apiversion in
  urls ← Py.getitem API_METHODS_URL apiversion;
  mret {| apiversion := apiversion;
          __urls := urls;
          __host := host;
          __port := port;
          __proto := proto;
          __returntype := RETURN_JSON;
          __ddurl := if proto =? __HTTP
                     then "http://" +:+ host +:+ ":" +:+ Py.str port
                     else "https://" +:+ host +:+ ":" +:+ Py.str port |}.

Definition set_return_format (f : Z) : Py.M state Py.value :=
  Py.assert ((f =? RETURN_JSON) || (f =? RETURN_TEXT) || (f =? RETURN_NONE));;
  Py.modify (assign_returntype f);;
  mret Py.None_.

Definition __return_data `{W : requests.Outside} (r : requests.Response) : Py.M state Py.value :=
  returntype ← Py.gets (fun st => __returntype (self st));
  if returntype =? RETURN_JSON then requests.Response_json r
  else if returntype =? RETURN_TEXT then mret (Py.Str (requests.text r))
  else mret Py.None_.

(** GET to DeepDetect server *)
Definition get `{W : requests.Outside} (method : string) (params : option Py.value) : Py.M state Py.value :=
  let params := default Py.None_ params in
  ddurl ← Py.gets (fun st => __ddurl (self st));
  let url := ddurl +:+ method in
  r ← on_wire (requests.get url params Py.None_ Py.None_ (Py.Int DD_TIMEOUT));
  requests.raise_for_status r;;
  __return_data r.

(** PUT request to DeepDetect server *)
Definition put `{W : requests.Outside} (method : string) (params : Py.value) : Py.M state Py.value :=
  ddurl ← Py.gets (fun st => __ddurl (self st));
  let url := ddurl +:+ method in
  r ← on_wire (requests.put url params Py.None_ Py.None_ (Py.Int DD_TIMEOUT));
  requests.raise_for_status r;;
  __return_data r.

(** POST request to DeepDetect server *)
Definition post `{W : requests.Outside} (method : string) (params : Py.value) : Py.M state Py.value :=
  ddurl ← Py.gets (fun st => __ddurl (self st));
  let url := ddurl +:+ method in
  r ← on_wire (requests.post url params Py.None_ Py.None_ (Py.Int DD_TIMEOUT));
  requests.raise_for_status r;;
  __return_data r.

(** DELETE request to DeepDetect server *)
Definition delete `{W : requests.Outside} (method : string) (params : Py.value) : Py.M state Py.value :=
  ddurl ← Py.gets (fun st => __ddurl (self st));
  let url := ddurl +:+ method in
  r ← on_wire (requests.delete url params Py.None_ Py.None_ (Py.Int DD_TIMEOUT));
  requests.raise_for_status r;;
  __return_data r.

(** [self.__urls[name]] *)
Definition urls_item (name : string) : Py.M state string :=
  urls ← Py.gets (fun st => __urls (self st));
  Py.getitem urls name.

(** Info on the DeepDetect server *)
Definition info `{W : requests.Outside} : Py.M state Py.value :=
  path ← urls_item "info";
  get path None.

(** Create a service *)
Definition put_service `{W : requests.Outside} (sname : string)
    (model description mllib parameters_input parameters_mllib parameters_output : Py.value)
    (mltype : option Py.value) : Py.M state Py.value :=
  let mltype := default (Py.Str "supervised") mltype in
  let params := Py.Dict (Py.dict [
    ("description", description);
    ("mllib", mllib);
    ("type", mltype);
    ("parameters", Py.Dict (Py.dict [("input", parameters_input);
                                     ("mllib", parameters_mllib);
                                     ("output", parameters_output)]));
    ("model", model)]) in
  path ← urls_item "services";
  put (path +:+ "/" +:+ sname) params.

(** Get information about a service *)
Definition get_service `{W : requests.Outside} (sname : string) : Py.M state Py.value :=
  path ← urls_item "services";
  get (path +:+ "/" +:+ sname) None.

(** Delete a service; [clear] is 'full', 'lib' or 'mem' and optionally
    clears model repository data. *)
Definition delete_service `{W : requests.Outside} (sname : string)
    (clear : option Py.value) : Py.M state Py.value :=
  let clear := default Py.None_ clear in
  let params := Py.None_ in
  let params := if Py.truthy clear
                then Py.Dict (Py.dict [("clear", clear)])
                else params in
  path ← urls_item "services";
  delete (path +:+ "/" +:+ sname) params.

(** Creates a training job *)
Definition post_train `{W : requests.Outside} (sname : string)
    (data parameters_input parameters_mllib parameters_output : Py.value)
    (async : option Py.value) : Py.M state Py.value :=
  let async := default (Py.Bool true) async in
  let params := Py.Dict (Py.dict [
    ("service", Py.Str sname);
    ("async", async);
    ("parameters", Py.Dict (Py.dict [("input", parameters_input);
                                     ("mllib", parameters_mllib);
                                     ("output", parameters_output)]));
    ("data", data)]) in
  path ← urls_item "train";
  post path params.

(** Get information on a non-blocking training job *)
Definition get_train `{W : requests.Outside} (sname : string) (job timeout : option Z)
    (measure_hist : option Py.value) : Py.M state Py.value :=
  let job := default 1 job in
  let timeout := default 0 timeout in
  let measure_hist := default (Py.Bool false) measure_hist in
  let params := Py.dict [("service", Py.Str sname);
                         ("job", Py.Str (Py.str job));
                         ("timeout", Py.Str (Py.str timeout))] in
  let params := if Py.truthy measure_hist
                then <["parameters.output.measure_hist" := measure_hist]> params
                else params in
  path ← urls_item "train";
  get path (Some (Py.Dict params)).

(** Kills a non-blocking training job *)
Definition delete_train `{W : requests.Outside} (sname : string) (job : option Z) : Py.M state Py.value :=
  let job := default 1 job in
  let params := Py.Dict (Py.dict [("service", Py.Str sname);
                                  ("job", Py.Str (Py.str job))]) in
  path ← urls_item "train";
  delete path params.

(** Makes prediction from data and model *)
Definition post_predict `{W : requests.Outside} (sname : string)
    (data parameters_input parameters_mllib parameters_output : Py.value) : Py.M state Py.value :=
  let params := Py.Dict (Py.dict [
    ("service", Py.Str sname);
    ("parameters", Py.Dict (Py.dict [("input", parameters_input);
                                     ("mllib", parameters_mllib);
                                     ("output", parameters_output)]));
    ("data", data)]) in
  path ← urls_item "predict";
  post path params.

End DD.

(** ** Callers and examples of the outside world *)

(** The calls a program can make on an instance. *)
Inductive call : Type :=
| Set_return_format (f : Z)
| Get (method : string) (params : option Py.value)
| Put (method : string) (params : Py.value)
| Post (method : string) (params : Py.value)
| Delete (method : string) (params : Py.value)
| Info
| Put_service (sname : string)
    (model description mllib parameters_input parameters_mllib parameters_output : Py.value)
    (mltype : option Py.value)
| Get_service (sname : string)
| Delete_service (sname : string) (clear : option Py.value)
| Post_train (sname : string)
    (data parameters_input parameters_mllib parameters_output : Py.value)
    (async : option Py.value)
| Get_train (sname : string) (job timeout : option Z) (measure_hist : option Py.value)
| Delete_train (sname : string) (job : option Z)
| Post_predict (sname : string)
    (data parameters_input parameters_mllib parameters_output : Py.value).

Definition perform `{W : requests.Outside} (c : call) : Py.M DD.state Py.value :=
  match c with
  | Set_return_format f => DD.set_return_format f
  | Get method params => DD.get method params
  | Put method params => DD.put method params
  | Post method params => DD.post method params
  | Delete method params => DD.delete method params
  | Info => DD.info
  | Put_service sname model description mllib pin pml pout mltype =>
      DD.put_service sname model description mllib pin pml pout mltype
  | Get_service sname => DD.get_service sname
  | Delete_service sname clear => DD.delete_service sname clear
  | Post_train sname data pin pml pout async =>
      DD.post_train sname data pin pml pout async
  | Get_train sname job timeout measure_hist =>
      DD.get_train sname job timeout measure_hist
  | Delete_train sname job => DD.delete_train sname job
  | Post_predict sname data pin pml pout =>
      DD.post_predict sname data pin pml pout
  end.

(** A program that makes the calls one after the other and goes on when a
    call raises: the state after the last call. *)
Fixpoint session `{W : requests.Outside} (calls : list call) (st : DD.state) : DD.state :=
  match calls with
  | [] => st
  | c :: calls => session calls (perform c st).2
  end.

(** The four verb operations, by HTTP method. *)
Definition verb_operation `{W : requests.Outside} (m : requests.verb)
    (method : string) (params : Py.value) : Py.M DD.state Py.value :=
  match m with
  | requests.GET => DD.get method (Some params)
  | requests.PUT => DD.put method params
  | requests.POST => DD.post method params
  | requests.DELETE => DD.delete method params
  end.

(** The request a verb operation hands to the library: the parameter map
    goes in [params=], the timeout is fixed, no other argument is given. *)
Definition verb_request (m : requests.verb) (ddurl method : string)
    (params : Py.value) : requests.Request :=
  {| requests.method := m;
     requests.url := ddurl +:+ method;
     requests.params := params;
     requests.data := Py.None_;
     requests.json := Py.None_;
     requests.timeout := Py.Int DD_TIMEOUT |}.

(** The three return types. *)
Definition return_type (f : Z) : Prop :=
  f = DD.RETURN_JSON \/ f = DD.RETURN_TEXT \/ f = DD.RETURN_NONE.

(** The URL table of an instance is the entry of its API version. *)
Definition versioned (c : DD.t) : Prop :=
  API_METHODS_URL !! DD.apiversion c = Some (DD.__urls c).

(** A request that carries a parameter map as its body and not in the
    query string (the reading of "with a body" for PUT and POST). *)
Definition carries_body (params : Py.value) (rq : requests.Request) : Prop :=
  (requests.data rq = params \/ requests.json rq = params) /\
  requests.params rq = Py.None_.

(** The success range of HTTP: the 2xx status codes. *)
Definition success_status (code : Z) : bool :=
  (200 <=? code) && (code <? 300).

(** A decoder for the JSON literals. *)
Definition literal_loads (s : string) : option Py.value :=
  if String.eqb s "null" then Some Py.None_
  else if String.eqb s "true" then Some (Py.Bool true)
  else if String.eqb s "false" then Some (Py.Bool false)
  else None.

(** A server that answers every request with the same status and body. *)
Definition answering (code : Z) (body : string) : requests.Outside :=
  {| requests.transmit := fun _ _ =>
       requests.Answered {| requests.status_code := code; requests.text := body |};
     requests.json_loads := literal_loads |}.

(** The instance [DD()] builds, and its state before any request. *)
Definition localhost : DD.t :=
  {| DD.apiversion := "0.1";
     DD.__urls := {[ "info" := "/info"; "services" := "/services";
                     "train" := "/train"; "predict" := "/predict" ]};
     DD.__host := "localhost";
     DD.__port := 8080;
     DD.__proto := 0;
     DD.__returntype := 0;
     DD.__ddurl := "http://localhost:8080" |}.

Definition fresh : DD.state := {| DD.self := localhost; DD.wire := [] |}.

(** A server that cannot be reached: every call of the library fails. *)
Definition unreachable (why : string) : requests.Outside :=
  {| requests.transmit := fun _ _ => requests.Failed why;
     requests.json_loads := literal_loads |}.

(** The exceptions the library raises: a transport failure, an error
    status, a body that is no JSON document. *)
Definition from_library (e : Py.exception) : Prop :=
  match e with
  | Py.RequestException _ | Py.HTTPError _ _ | Py.ValueError => True
  | Py.KeyError _ | Py.AssertionError => False
  end.

(** Two instances with the same connection: they agree on every attribute
    but the return type. *)
Definition same_connection (c c' : DD.t) : Prop :=
  DD.apiversion c = DD.apiversion c' /\
  DD.__urls c = DD.__urls c' /\
  DD.__host c = DD.__host c' /\
  DD.__port c = DD.__port c' /\
  DD.__proto c = DD.__proto c' /\
  DD.__ddurl c = DD.__ddurl c'.

(** The conversion of a response under return type [f], as a result. *)
Definition converted `{W : requests.Outside} (f : Z) (r : requests.Response) :
    Py.result Py.value :=
  if f =? DD.RETURN_JSON
  then match requests.json_loads (requests.text r) with
       | Some v => Py.Return v
       | None => Py.Raise Py.ValueError
       end
  else if f =? DD.RETURN_TEXT then Py.Return (Py.Str (requests.text r))
  else Py.Return Py.None_.

(** The script under [if __name__ == '__main__':]
    [dd = DD(); dd.set_return_format(dd.RETURN_JSON); inf = dd.info(); print(inf)].
    Its state is the requests sent and the objects printed. *)
Definition main `{W : requests.Outside} :
    Py.M (list requests.Request * list Py.value) unit :=
  fun '(sent, printed) =>
    match DD.__init__ None None None None sent with
    | (Py.Raise e, sent) => (Py.Raise e, (sent, printed))
    | (Py.Return dd, sent) =>
        match (DD.set_return_format DD.RETURN_JSON;; DD.info)
                {| DD.self := dd; DD.wire := sent |} with
        | (Py.Raise e, st) => (Py.Raise e, (DD.wire st, printed))
        | (Py.Return inf, st) => (Py.Return tt, (DD.wire st, printed ++ [inf]))
        end
    end.

(** ** Laws of the computations *)

Lemma default_constructor sent :
  DD.__init__ None None None None sent = (Py.Return localhost, sent).
Proof. reflexivity. Qed.

Lemma bind_run {S A B : Type} (m : Py.M S A) (k : A -> Py.M S B) (s : S) :
  (m ≫= k) s =
    match m s with
    | (Py.Return a, s') => k a s'
    | (Py.Raise e, s') => (Py.Raise e, s')
    end.
Proof. reflexivity. Qed.

Lemma versioned_urls (c : DD.t) :
  versioned c ->
  DD.__urls c = {[ "info" := "/info"; "services" := "/services";
                   "train" := "/train"; "predict" := "/predict" ]}.
Proof.
  unfold versioned, API_METHODS_URL. intros Hv.
  apply lookup_singleton_Some in Hv as [_ Hv]. by symmetry.
Qed.

Lemma constructor_versioned host port proto apiversion sent c sent' :
  DD.__init__ host port proto apiversion sent = (Py.Return c, sent') ->
  versioned c /\ DD.__returntype c = DD.RETURN_JSON /\ sent' = sent.
Proof.
  unfold DD.__init__. rewrite bind_run. unfold Py.getitem, versioned.
  destruct (API_METHODS_URL !! default "0.1" apiversion) as [urls|] eqn:Hurls;
    cbn; intros Hrun; [|discriminate].
  injection Hrun as <- <-. cbn. by rewrite Hurls.
Qed.

Lemma urls_item_run (name : string) (st : DD.state) :
  DD.urls_item name st =
    match DD.__urls (DD.self st) !! name with
    | Some path => (Py.Return path, st)
    | None => (Py.Raise (Py.KeyError name), st)
    end.
Proof.
  unfold DD.urls_item. rewrite bind_run. cbn. unfold Py.getitem.
  by destruct (DD.__urls (DD.self st) !! name).
Qed.

Lemma set_return_format_run (f : Z) (st : DD.state) :
  DD.set_return_format f st =
    if (f =? DD.RETURN_JSON) || (f =? DD.RETURN_TEXT) || (f =? DD.RETURN_NONE)
    then (Py.Return Py.None_, DD.assign_returntype f st)
    else (Py.Raise Py.AssertionError, st).
Proof.
  unfold DD.set_return_format. rewrite bind_run. unfold Py.assert.
  by destruct ((f =? DD.RETURN_JSON) || (f =? DD.RETURN_TEXT) || (f =? DD.RETURN_NONE)).
Qed.

Lemma return_type_test (f : Z) :
  (f =? DD.RETURN_JSON) || (f =? DD.RETURN_TEXT) || (f =? DD.RETURN_NONE) = true
  <-> return_type f.
Proof.
  unfold return_type. rewrite !orb_true_iff, !Z.eqb_eq. tauto.
Qed.

Lemma urls_item_versioned (name path : string) (st : DD.state) :
  versioned (DD.self st) ->
  ({[ "info" := "/info"; "services" := "/services";
      "train" := "/train"; "predict" := "/predict" ]} : gmap string string) !! name
    = Some path ->
  DD.urls_item name st = (Py.Return path, st).
Proof.
  intros Hv Hpath. by rewrite urls_item_run, (versioned_urls _ Hv), Hpath.
Qed.

Section Laws.
Context `{W : requests.Outside}.

Lemma return_data_run (r : requests.Response) (st : DD.state) :
  DD.__return_data r st =
    (if DD.__returntype (DD.self st) =? DD.RETURN_JSON
     then match requests.json_loads (requests.text r) with
          | Some v => Py.Return v
          | None => Py.Raise Py.ValueError
          end
     else if DD.__returntype (DD.self st) =? DD.RETURN_TEXT
          then Py.Return (Py.Str (requests.text r))
          else Py.Return Py.None_,
     st).
Proof.
  unfold DD.__return_data. rewrite bind_run. cbn.
  destruct (DD.__returntype (DD.self st) =? DD.RETURN_JSON).
  - unfold requests.Response_json.
    by destruct (requests.json_loads (requests.text r)).
  - by destruct (DD.__returntype (DD.self st) =? DD.RETURN_TEXT).
Qed.

(** One verb operation, step by step: the request goes out, a transport
    failure or an error status is raised, and otherwise the response is
    converted. *)
Lemma verb_operation_run (m : requests.verb) (method : string)
    (params : Py.value) (st : DD.state) :
  verb_operation m method params st =
    match requests.transmit (DD.wire st)
            (verb_request m (DD.__ddurl (DD.self st)) method params) with
    | requests.Failed why =>
        (Py.Raise (Py.RequestException why),
         {| DD.self := DD.self st;
            DD.wire := DD.wire st ++
              [verb_request m (DD.__ddurl (DD.self st)) method params] |})
    | requests.Answered r =>
        if requests.is_error_status (requests.status_code r)
        then (Py.Raise (Py.HTTPError (requests.status_code r) (requests.text r)),
              {| DD.self := DD.self st;
                 DD.wire := DD.wire st ++
                   [verb_request m (DD.__ddurl (DD.self st)) method params] |})
        else DD.__return_data r
              {| DD.self := DD.self st;
                 DD.wire := DD.wire st ++
                   [verb_request m (DD.__ddurl (DD.self st)) method params] |}
    end.
Proof.
  destruct m; cbn.
  all: unfold DD.get, DD.put, DD.post, DD.delete, mbind, Py.M_bind, Py.gets,
    DD.on_wire, requests.get, requests.put, requests.post, requests.delete,
    requests.request, verb_request; cbn.
  all: destruct (requests.transmit _ _) as [r|why]; cbn; try reflexivity.
  all: unfold requests.raise_for_status;
    by destruct (requests.is_error_status _).
Qed.

(** Whatever the answer, a verb operation sends exactly one request and
    leaves the instance as it was. *)
Lemma verb_operation_state (m : requests.verb) (method : string)
    (params : Py.value) (st : DD.state) :
  (verb_operation m method params st).2 =
    {| DD.self := DD.self st;
       DD.wire := DD.wire st ++
         [verb_request m (DD.__ddurl (DD.self st)) method params] |}.
Proof.
  rewrite verb_operation_run.
  destruct (requests.transmit _ _) as [r|why]; [|done].
  destruct (requests.is_error_status _); [done|].
  by rewrite return_data_run.
Qed.

Lemma get_state method params st :
  (DD.get method params st).2 =
    {| DD.self := DD.self st;
       DD.wire := DD.wire st ++
         [verb_request requests.GET (DD.__ddurl (DD.self st)) method
            (default Py.None_ params)] |}.
Proof.
  destruct params as [params|];
    exact (verb_operation_state requests.GET method _ st).
Qed.

Lemma put_state method params st :
  (DD.put method params st).2 =
    {| DD.self := DD.self st;
       DD.wire := DD.wire st ++
         [verb_request requests.PUT (DD.__ddurl (DD.self st)) method params] |}.
Proof. exact (verb_operation_state requests.PUT method params st). Qed.

Lemma post_state method params st :
  (DD.post method params st).2 =
    {| DD.self := DD.self st;
       DD.wire := DD.wire st ++
         [verb_request requests.POST (DD.__ddurl (DD.self st)) method params] |}.
Proof. exact (verb_operation_state requests.POST method params st). Qed.

Lemma delete_state method params st :
  (DD.delete method params st).2 =
    {| DD.self := DD.self st;
       DD.wire := DD.wire st ++
         [verb_request requests.DELETE (DD.__ddurl (DD.self st)) method params] |}.
Proof. exact (verb_operation_state requests.DELETE method params st). Qed.

(** A resource operation looks its path up and then calls a verb
    operation: the instance is the same afterwards. *)
Lemma after_urls_item {A : Type} (name : string) (k : string -> Py.M DD.state A)
    (st : DD.state) :
  (forall path, DD.self (k path st).2 = DD.self st) ->
  DD.self ((DD.urls_item name ≫= k) st).2 = DD.self st.
Proof.
  intros Hk. rewrite bind_run, urls_item_run.
  destruct (DD.__urls (DD.self st) !! name); [apply Hk|done].
Qed.

Lemma perform_keeps_self (c : call) (st : DD.state) :
  (forall f, c <> Set_return_format f) ->
  DD.self (perform c st).2 = DD.self st.
Proof.
  intros Hc. destruct c; cbn [perform].
  - by destruct (Hc f).
  - by rewrite get_state.
  - by rewrite put_state.
  - by rewrite post_state.
  - by rewrite delete_state.
  - apply after_urls_item. intros path. by rewrite get_state.
  - apply after_urls_item. intros path. by rewrite put_state.
  - apply after_urls_item. intros path. by rewrite get_state.
  - apply after_urls_item. intros path. by rewrite delete_state.
  - apply after_urls_item. intros path. by rewrite post_state.
  - apply after_urls_item. intros path. by rewrite get_state.
  - apply after_urls_item. intros path. by rewrite delete_state.
  - apply after_urls_item. intros path. by rewrite post_state.
Qed.

Lemma perform_keeps_return_type (c : call) (st : DD.state) :
  return_type (DD.__returntype (DD.self st)) ->
  return_type (DD.__returntype (DD.self (perform c st).2)).
Proof.
  intros Hst.
  destruct c; try (rewrite perform_keeps_self; [exact Hst|discriminate]).
  cbn [perform]. rewrite set_return_format_run.
  destruct ((f =? DD.RETURN_JSON) || (f =? DD.RETURN_TEXT) || (f =? DD.RETURN_NONE))
    eqn:Hf; [|exact Hst].
  by apply return_type_test in Hf.
Qed.

Lemma session_keeps_return_type (calls : list call) (st : DD.state) :
  return_type (DD.__returntype (DD.self st)) ->
  return_type (DD.__returntype (DD.self (session calls st))).
Proof.
  revert st. induction calls as [|c calls IH]; intros st Hst; [exact Hst|].
  cbn [session]. apply IH. by apply perform_keeps_return_type.
Qed.

End Laws.

(** ** The client at work on a fixed server *)

Example info_request :
  DD.info (W := answering 200 "true") fresh
  = (Py.Return (Py.Bool true),
     {| DD.self := localhost;
        DD.wire := [verb_request requests.GET "http://localhost:8080" "/info" Py.None_] |}).
Proof. reflexivity. Qed.

Example delete_train_request :
  DD.wire (DD.delete_train (W := answering 200 "null") "digits" None fresh).2
  = [verb_request requests.DELETE "http://localhost:8080" "/train"
       (Py.Dict {[ "service" := Py.Str "digits"; "job" := Py.Str "1" ]})].
Proof. reflexivity. Qed.

Example text_of_not_found :
  let st := (DD.set_return_format DD.RETURN_TEXT fresh).2 in
  (DD.get (W := answering 404 "no such service") "/services/digits" None st).1
  = Py.Raise (Py.HTTPError 404 "no such service").
Proof. reflexivity. Qed.

(** The status check is the library's: a 304 is no error status. *)
Example not_modified_is_converted :
  (DD.get (W := answering 304 "null") "/info" None fresh).1 = Py.Return Py.None_.
Proof. reflexivity. Qed.

(** ** Properties of the client *)

(** C1. When a verb operation receives a response that passes the status
    check, what it returns follows the instance's return type: with
    [RETURN_JSON] the body decoded as JSON (the decoder's [ValueError] when
    the body is no JSON document), with [RETURN_TEXT] the body as a string,
    with [RETURN_NONE] the object [None]; and the constructor sets the
    return type to [RETURN_JSON]. *)
Theorem return_value_follows_return_type `{W : requests.Outside}
    (m : requests.verb) (method : string) (params : Py.value)
    (st : DD.state) (r : requests.Response) :
  requests.transmit (DD.wire st)
    (verb_request m (DD.__ddurl (DD.self st)) method params) = requests.Answered r ->
  requests.ok r = true ->
  (DD.__returntype (DD.self st) = DD.RETURN_JSON ->
     (forall v, requests.json_loads (requests.text r) = Some v ->
        (verb_operation m method params st).1 = Py.Return v) /\
     (requests.json_loads (requests.text r) = None ->
        (verb_operation m method params st).1 = Py.Raise Py.ValueError)) /\
  (DD.__returntype (DD.self st) = DD.RETURN_TEXT ->
     (verb_operation m method params st).1 = Py.Return (Py.Str (requests.text r))) /\
  (DD.__returntype (DD.self st) = DD.RETURN_NONE ->
     (verb_operation m method params st).1 = Py.Return Py.None_) /\
  (forall host port proto apiversion sent c sent',
     DD.__init__ host port proto apiversion sent = (Py.Return c, sent') ->
     DD.__returntype c = DD.RETURN_JSON).
Proof.
  intros Hr Hok. unfold requests.ok in Hok. apply negb_true_iff in Hok.
  rewrite verb_operation_run, Hr, Hok, return_data_run. cbn [fst DD.self].
  split; [|split; [|split]].
  - intros ->. split; [intros v ->|intros ->]; reflexivity.
  - intros ->. reflexivity.
  - intros ->. reflexivity.
  - intros host port proto apiversion sent c sent' Hinit.
    by apply constructor_versioned in Hinit as (_ & Hjson & _).
Qed.

Lemma return_value_follows_return_type_witness :
  (verb_operation (W := answering 200 "true") requests.GET "/info" Py.None_ fresh).1
  = Py.Return (Py.Bool true).
Proof.
  apply (proj1 (return_value_follows_return_type (W := answering 200 "true")
    requests.GET "/info" Py.None_ fresh
    {| requests.status_code := 200; requests.text := "true" |}
    eq_refl eq_refl)); reflexivity.
Defined.

(** C2, as the code has it. [put] and [post] send one PUT, respectively
    POST, request to the base URL followed by the path; the parameter map
    is the [params=] argument of the library call, that is the query
    string of the URL, and the request has no body ([data] and [json] are
    not given). *)
Theorem put_post_send_map_in_query `{W : requests.Outside}
    (method : string) (params : Py.value) (st : DD.state) :
  (exists rq,
     DD.wire (DD.put method params st).2 = DD.wire st ++ [rq] /\
     requests.method rq = requests.PUT /\
     requests.url rq = DD.__ddurl (DD.self st) +:+ method /\
     requests.params rq = params /\
     requests.data rq = Py.None_ /\ requests.json rq = Py.None_) /\
  (exists rq,
     DD.wire (DD.post method params st).2 = DD.wire st ++ [rq] /\
     requests.method rq = requests.POST /\
     requests.url rq = DD.__ddurl (DD.self st) +:+ method /\
     requests.params rq = params /\
     requests.data rq = Py.None_ /\ requests.json rq = Py.None_).
Proof.
  split; eexists; (split; [by rewrite ?put_state, ?post_state|done]).
Qed.

(** C2, as the claim has it, fails: the request [put] sends for a service
    description has the map in its query parameters and nothing as body. *)
Lemma put_body_counterexample :
  exists rq,
    DD.wire (DD.put (W := answering 200 "null") "/services/digits"
               (Py.Dict {[ "description" := Py.Str "mlp" ]}) fresh).2 = [rq] /\
    requests.method rq = requests.PUT /\
    ~ carries_body (Py.Dict {[ "description" := Py.Str "mlp" ]}) rq.
Proof.
  eexists. split; [by rewrite put_state|]. split; [done|].
  intros [_ Hquery]. discriminate Hquery.
Qed.

(** C3. With an API version that has no entry in [API_METHODS_URL] the
    constructor raises [KeyError] and sends nothing; with a version that
    has an entry, the default one among them, it returns an instance (and
    sends nothing either). *)
Theorem constructor_needs_known_version
    (host : option string) (port proto : option Z) (apiversion : string)
    (sent : list requests.Request) :
  (API_METHODS_URL !! apiversion = None ->
     DD.__init__ host port proto (Some apiversion) sent
     = (Py.Raise (Py.KeyError apiversion), sent)) /\
  (is_Some (API_METHODS_URL !! apiversion) ->
     exists c, DD.__init__ host port proto (Some apiversion) sent = (Py.Return c, sent)) /\
  is_Some (API_METHODS_URL !! "0.1") /\
  (exists c, DD.__init__ host port proto None sent = (Py.Return c, sent)).
Proof.
  repeat split.
  - intros Hnone. unfold DD.__init__. rewrite bind_run. unfold Py.getitem.
    change (default "0.1" (Some apiversion)) with apiversion. by rewrite Hnone.
  - intros [urls Hurls]. unfold DD.__init__. rewrite bind_run. unfold Py.getitem.
    change (default "0.1" (Some apiversion)) with apiversion.
    rewrite Hurls. by eexists.
  - by eexists.
  - by eexists.
Qed.

Lemma constructor_needs_known_version_witness :
  DD.__init__ None None None (Some "0.2") [] = (Py.Raise (Py.KeyError "0.2"), []) /\
  exists c, DD.__init__ None None None (Some "0.1") [] = (Py.Return c, []).
Proof.
  split.
  - apply (proj1 (constructor_needs_known_version None None None "0.2" [])).
    reflexivity.
  - apply (proj1 (proj2 (constructor_needs_known_version None None None "0.1" []))).
    by eexists.
Defined.

(** C4. [set_return_format f] returns, having stored [f], exactly when [f]
    is one of the three return types; for any other value it raises
    [AssertionError] and changes nothing; in both cases no request is
    sent. *)
Theorem set_return_format_accepts_return_types (f : Z) (st : DD.state) :
  (return_type f ->
     DD.set_return_format f st = (Py.Return Py.None_, DD.assign_returntype f st)) /\
  (~ return_type f ->
     DD.set_return_format f st = (Py.Raise Py.AssertionError, st)) /\
  DD.wire (DD.set_return_format f st).2 = DD.wire st.
Proof.
  rewrite set_return_format_run.
  destruct ((f =? DD.RETURN_JSON) || (f =? DD.RETURN_TEXT) || (f =? DD.RETURN_NONE))
    eqn:Hf.
  - apply return_type_test in Hf. by repeat split.
  - repeat split; [|done..]. intros Hrt. apply return_type_test in Hrt. congruence.
Qed.

Lemma set_return_format_accepts_return_types_witness :
  DD.set_return_format 1 fresh = (Py.Return Py.None_, DD.assign_returntype 1 fresh) /\
  DD.set_return_format 3 fresh = (Py.Raise Py.AssertionError, fresh).
Proof.
  split.
  - apply (proj1 (set_return_format_accepts_return_types 1 fresh)).
    right; left; reflexivity.
  - apply (proj1 (proj2 (set_return_format_accepts_return_types 3 fresh))).
    unfold return_type, DD.RETURN_JSON, DD.RETURN_TEXT, DD.RETURN_NONE. lia.
Defined.

(** C5, as the code has it. For each of GET, PUT, POST and DELETE: when
    the response has a client or server error status, from 400 up to 599
    (the statuses [raise_for_status] raises for), the operation raises
    [HTTPError] with the status code and the body of that response, and
    returns no converted value; 500 is such a status. *)
Theorem error_status_raises `{W : requests.Outside}
    (m : requests.verb) (method : string) (params : Py.value)
    (st : DD.state) (r : requests.Response) :
  requests.transmit (DD.wire st)
    (verb_request m (DD.__ddurl (DD.self st)) method params) = requests.Answered r ->
  400 <= requests.status_code r < 600 ->
  (verb_operation m method params st).1
  = Py.Raise (Py.HTTPError (requests.status_code r) (requests.text r)).
Proof.
  intros Hr [Hlow Hhigh].
  assert (Herr : requests.is_error_status (requests.status_code r) = true).
  { unfold requests.is_error_status. apply andb_true_iff.
    split; [by apply Z.leb_le|by apply Z.ltb_lt]. }
  by rewrite verb_operation_run, Hr, Herr.
Qed.

Lemma error_status_raises_witness :
  (DD.get (W := answering 500 "oops") "/info" None fresh).1
    = Py.Raise (Py.HTTPError 500 "oops") /\
  (DD.put (W := answering 500 "oops") "/services/s" Py.None_ fresh).1
    = Py.Raise (Py.HTTPError 500 "oops") /\
  (DD.post (W := answering 500 "oops") "/train" Py.None_ fresh).1
    = Py.Raise (Py.HTTPError 500 "oops") /\
  (DD.delete (W := answering 500 "oops") "/train" Py.None_ fresh).1
    = Py.Raise (Py.HTTPError 500 "oops").
Proof.
  assert (Hrange : 400 <= 500 < 600) by lia.
  split; [|split; [|split]].
  - exact (error_status_raises (W := answering 500 "oops") requests.GET
      "/info" Py.None_ fresh _ eq_refl Hrange).
  - exact (error_status_raises (W := answering 500 "oops") requests.PUT
      "/services/s" Py.None_ fresh _ eq_refl Hrange).
  - exact (error_status_raises (W := answering 500 "oops") requests.POST
      "/train" Py.None_ fresh _ eq_refl Hrange).
  - exact (error_status_raises (W := answering 500 "oops") requests.DELETE
      "/train" Py.None_ fresh _ eq_refl Hrange).
Defined.

(** C5, as the claim has it, fails: 304, 399 and 600 lie outside the
    success range, and a response with one of them is converted and
    returned like a successful one. *)
Lemma status_outside_success_counterexample :
  (success_status 304 = false /\
   (DD.get (W := answering 304 "true") "/info" None fresh).1
   = Py.Return (Py.Bool true)) /\
  (success_status 399 = false /\
   (DD.put (W := answering 399 "true") "/services/s" Py.None_ fresh).1
   = Py.Return (Py.Bool true)) /\
  (success_status 600 = false /\
   (DD.delete (W := answering 600 "true") "/train" Py.None_ fresh).1
   = Py.Return (Py.Bool true)).
Proof. repeat split. Qed.

(** C6. [delete_service] sends one DELETE request to services/{name}.
    Called without a clear mode it passes no parameter map at all, so the
    request has no clear field; called with a clear mode that counts as
    true, as 'full', 'lib' and 'mem' do, the parameter map is exactly
    [{clear: mode}]. *)
Theorem delete_service_clear_field `{W : requests.Outside}
    (sname : string) (clear : Py.value) (st : DD.state) :
  versioned (DD.self st) ->
  DD.wire (DD.delete_service sname None st).2
    = DD.wire st ++ [verb_request requests.DELETE (DD.__ddurl (DD.self st))
                       ("/services/" +:+ sname) Py.None_] /\
  (Py.truthy clear = true ->
   DD.wire (DD.delete_service sname (Some clear) st).2
    = DD.wire st ++ [verb_request requests.DELETE (DD.__ddurl (DD.self st))
                       ("/services/" +:+ sname) (Py.Dict {[ "clear" := clear ]})]) /\
  DD.wire (DD.delete_service sname (Some (Py.Str "full")) st).2
    = DD.wire st ++ [verb_request requests.DELETE (DD.__ddurl (DD.self st))
                       ("/services/" +:+ sname)
                       (Py.Dict {[ "clear" := Py.Str "full" ]})].
Proof.
  intros Hv.
  assert (Hrun : forall clear',
    DD.wire (DD.delete_service sname clear' st).2
    = DD.wire st ++ [verb_request requests.DELETE (DD.__ddurl (DD.self st))
        ("/services/" +:+ sname)
        (if Py.truthy (default Py.None_ clear')
         then Py.Dict {[ "clear" := default Py.None_ clear' ]}
         else Py.None_)]).
  { intros clear'. unfold DD.delete_service. rewrite bind_run.
    rewrite (urls_item_versioned "services" "/services" st Hv eq_refl).
    by rewrite delete_state. }
  split; [|split].
  - by rewrite Hrun.
  - intros Hclear. rewrite Hrun. simpl default. by rewrite Hclear.
  - by rewrite Hrun.
Qed.

Lemma delete_service_clear_field_witness :
  DD.wire (DD.delete_service (W := answering 200 "null") "digits"
             (Some (Py.Str "lib")) fresh).2
  = [verb_request requests.DELETE "http://localhost:8080" "/services/digits"
       (Py.Dict {[ "clear" := Py.Str "lib" ]})].
Proof.
  apply (proj1 (proj2 (delete_service_clear_field (W := answering 200 "null")
    "digits" (Py.Str "lib") fresh eq_refl))).
  reflexivity.
Defined.

(** C7. [get_train] sends one GET request to the train path, whichever of
    its optional arguments are given. Its parameter map has [service] =
    the name, [job] = the job number as a decimal string (1 when left
    out) and [timeout] = the timeout as a decimal string (0 when left
    out); the key [parameters.output.measure_hist] is in the map exactly
    when [measure_hist] is given and counts as true (for a boolean: when
    it is [True]), its value is then the argument, and no other key is in
    the map. With [measure_hist] left out the key is absent, for every job
    number and timeout. *)
Theorem get_train_parameters `{W : requests.Outside}
    (sname : string) (job timeout : option Z) (measure_hist : option Py.value)
    (st : DD.state) :
  versioned (DD.self st) ->
  (exists d : gmap string Py.value,
     DD.wire (DD.get_train sname job timeout measure_hist st).2
       = DD.wire st ++ [verb_request requests.GET (DD.__ddurl (DD.self st))
                          "/train" (Py.Dict d)] /\
     d !! "service" = Some (Py.Str sname) /\
     d !! "job" = Some (Py.Str (Py.str (default 1 job))) /\
     d !! "timeout" = Some (Py.Str (Py.str (default 0 timeout))) /\
     (is_Some (d !! "parameters.output.measure_hist")
        <-> exists v, measure_hist = Some v /\ Py.truthy v = true) /\
     (measure_hist = None -> d !! "parameters.output.measure_hist" = None) /\
     (forall b, measure_hist = Some (Py.Bool b) ->
        (is_Some (d !! "parameters.output.measure_hist") <-> b = true)) /\
     (forall v, d !! "parameters.output.measure_hist" = Some v ->
        measure_hist = Some v) /\
     dom d ⊆ {[ "service"; "job"; "timeout"; "parameters.output.measure_hist" ]}) /\
  Py.str 3 = "3".
Proof.
  intros Hv. split; [|done].
  eexists. split.
  { unfold DD.get_train. rewrite bind_run.
    rewrite (urls_item_versioned "train" "/train" st Hv eq_refl).
    rewrite get_state. reflexivity. }
  simpl default. cbn [Py.dict foldl fst snd].
  destruct measure_hist as [mh|]; simpl default;
    [destruct (Py.truthy mh) eqn:Hmh|cbn [Py.truthy]].
  - split; [by simplify_map_eq|]. split; [by simplify_map_eq|].
    split; [by simplify_map_eq|]. split; [|split; [|split; [|split]]].
    + split; [intros _; by exists mh|]. intros _. by rewrite lookup_insert_eq.
    + discriminate.
    + intros b [= ->]. split; [intros _; exact Hmh|].
      intros _. by rewrite lookup_insert_eq.
    + intros v. rewrite lookup_insert_eq. by intros [= ->].
    + set_solver.
  - split; [by simplify_map_eq|]. split; [by simplify_map_eq|].
    split; [by simplify_map_eq|]. split; [|split; [|split; [|split]]].
    + split; [intros [v Hv']; by simplify_map_eq|].
      intros (v & [= <-] & Htrue). congruence.
    + discriminate.
    + intros b [= ->]. split; [|by intros ->].
      intros [v Hv']. by simplify_map_eq.
    + intros v Hv'. by simplify_map_eq.
    + rewrite !dom_insert_L, dom_empty_L.
      intros k Hk. rewrite !elem_of_union, !elem_of_singleton in *.
      rewrite elem_of_empty in Hk. tauto.
  - split; [by simplify_map_eq|]. split; [by simplify_map_eq|].
    split; [by simplify_map_eq|]. split; [|split; [|split; [|split]]].
    + split; [intros [v Hv']; by simplify_map_eq|].
      by intros (v & Hnone & _).
    + intros _. by simplify_map_eq.
    + discriminate.
    + intros v Hv'. by simplify_map_eq.
    + rewrite !dom_insert_L, dom_empty_L.
      intros k Hk. rewrite !elem_of_union, !elem_of_singleton in *.
      rewrite elem_of_empty in Hk. tauto.
Qed.

Lemma get_train_parameters_witness :
  (exists d : gmap string Py.value,
     DD.wire (DD.get_train (W := answering 200 "null") "digits" (Some 3) None
                (Some (Py.Bool true)) fresh).2
       = [verb_request requests.GET "http://localhost:8080" "/train" (Py.Dict d)] /\
     d !! "job" = Some (Py.Str "3") /\
     d !! "timeout" = Some (Py.Str "0") /\
     is_Some (d !! "parameters.output.measure_hist")) /\
  (exists d : gmap string Py.value,
     DD.wire (DD.get_train (W := answering 200 "null") "digits" (Some 3) (Some 0)
                None fresh).2
       = [verb_request requests.GET "http://localhost:8080" "/train" (Py.Dict d)] /\
     d !! "job" = Some (Py.Str "3") /\
     d !! "parameters.output.measure_hist" = None).
Proof.
  split.
  - destruct (proj1 (get_train_parameters (W := answering 200 "null")
      "digits" (Some 3) None (Some (Py.Bool true)) fresh eq_refl))
      as (d & Hwire & _ & Hjob & Htimeout & Hhist & _).
    exists d. split; [exact Hwire|]. split; [exact Hjob|].
    split; [exact Htimeout|]. apply Hhist. by exists (Py.Bool true).
  - destruct (proj1 (get_train_parameters (W := answering 200 "null")
      "digits" (Some 3) (Some 0) None fresh eq_refl))
      as (d & Hwire & _ & Hjob & _ & _ & Habsent & _).
    exists d. split; [exact Hwire|]. split; [exact Hjob|]. by apply Habsent.
Defined.

(** C8. [post_train] sends one POST request to the train path. The map it
    passes has exactly the keys [service], [async], [parameters] and
    [data]: the service name, the non-blocking flag ([True] when it is
    left out), the map [{input, mllib, output}] of the three parameter
    dictionaries, and the data. *)
Theorem post_train_payload `{W : requests.Outside}
    (sname : string)
    (data parameters_input parameters_mllib parameters_output : Py.value)
    (async : option Py.value) (st : DD.state) :
  versioned (DD.self st) ->
  exists d p : gmap string Py.value,
    DD.wire (DD.post_train sname data parameters_input parameters_mllib
               parameters_output async st).2
      = DD.wire st ++ [verb_request requests.POST (DD.__ddurl (DD.self st))
                         "/train" (Py.Dict d)] /\
    dom d = {[ "service"; "async"; "parameters"; "data" ]} /\
    d !! "service" = Some (Py.Str sname) /\
    d !! "async" = Some (default (Py.Bool true) async) /\
    d !! "parameters" = Some (Py.Dict p) /\
    d !! "data" = Some data /\
    dom p = {[ "input"; "mllib"; "output" ]} /\
    p !! "input" = Some parameters_input /\
    p !! "mllib" = Some parameters_mllib /\
    p !! "output" = Some parameters_output.
Proof.
  intros Hv. eexists _, _. split.
  { unfold DD.post_train. rewrite bind_run.
    rewrite (urls_item_versioned "train" "/train" st Hv eq_refl).
    rewrite post_state. cbn [Py.dict foldl fst snd]. reflexivity. }
  split.
  { rewrite !dom_insert_L, dom_empty_L. apply set_eq. intros k.
    rewrite !elem_of_union, !elem_of_singleton, elem_of_empty. tauto. }
  do 4 (split; [by simplify_map_eq|]).
  split.
  { rewrite !dom_insert_L, dom_empty_L. apply set_eq. intros k.
    rewrite !elem_of_union, !elem_of_singleton, elem_of_empty. tauto. }
  split; [|split]; by simplify_map_eq.
Qed.

Lemma post_train_payload_witness :
  exists d p : gmap string Py.value,
    DD.wire (DD.post_train (W := answering 200 "null") "digits"
               (Py.List [Py.Str "train.svm"]) (Py.Dict ∅) (Py.Dict ∅) (Py.Dict ∅)
               None fresh).2
      = [verb_request requests.POST "http://localhost:8080" "/train" (Py.Dict d)] /\
    d !! "service" = Some (Py.Str "digits") /\
    d !! "async" = Some (Py.Bool true) /\
    d !! "parameters" = Some (Py.Dict p) /\
    d !! "data" = Some (Py.List [Py.Str "train.svm"]).
Proof.
  destruct (post_train_payload (W := answering 200 "null") "digits"
    (Py.List [Py.Str "train.svm"]) (Py.Dict ∅) (Py.Dict ∅) (Py.Dict ∅) None fresh
    eq_refl) as (d & p & Hwire & _ & Hservice & Hasync & Hparameters & Hdata & _).
  exists d, p. repeat (split; [assumption|]). assumption.
Defined.

(** C9. The return type of an instance is always one of [RETURN_JSON],
    [RETURN_TEXT] and [RETURN_NONE]: the constructor sets [RETURN_JSON];
    after any sequence of calls (a call that raises included) it is one of
    the three; [set_return_format] stores its argument when the assertion
    holds and leaves the state as it was when the assertion fails; no
    other call changes the instance. *)
Theorem returntype_is_a_return_type `{W : requests.Outside}
    (host : option string) (port proto : option Z) (apiversion : option string)
    (sent sent' : list requests.Request) (c : DD.t) :
  DD.__init__ host port proto apiversion sent = (Py.Return c, sent') ->
  DD.__returntype c = DD.RETURN_JSON /\
  (forall calls : list call,
     return_type (DD.__returntype
       (DD.self (session calls {| DD.self := c; DD.wire := sent' |})))) /\
  (forall f st, return_type f ->
     DD.__returntype (DD.self (DD.set_return_format f st).2) = f) /\
  (forall f st, ~ return_type f -> (DD.set_return_format f st).2 = st) /\
  (forall (k : call) st, (forall f, k <> Set_return_format f) ->
     DD.self (perform k st).2 = DD.self st).
Proof.
  intros Hinit. apply constructor_versioned in Hinit as (_ & Hjson & _).
  split; [exact Hjson|]. split; [|split; [|split]].
  - intros calls. apply session_keeps_return_type. cbn [DD.self].
    rewrite Hjson. by left.
  - intros f st Hf. rewrite set_return_format_run.
    apply return_type_test in Hf. by rewrite Hf.
  - intros f st Hf. rewrite set_return_format_run.
    destruct ((f =? DD.RETURN_JSON) || (f =? DD.RETURN_TEXT) || (f =? DD.RETURN_NONE))
      eqn:Htest; [|done].
    by apply return_type_test in Htest.
  - intros k st Hk. by apply perform_keeps_self.
Qed.

Lemma returntype_is_a_return_type_witness :
  return_type (DD.__returntype (DD.self
    (session (W := answering 200 "null")
       [Set_return_format 7; Info; Set_return_format 2; Get_service "digits"]
       fresh))).
Proof.
  exact (proj1 (proj2 (returntype_is_a_return_type (W := answering 200 "null")
    None None None None [] [] localhost eq_refl)) _).
Defined.

(** C10. The constructor does not check the protocol selector. With a
    known API version it returns an instance for every [proto]: the base
    URL is [http://host:port] when [proto] is 0 and [https://host:port]
    for every other value, 1 as well as 2 or -1. *)
Theorem constructor_accepts_any_proto
    (host : string) (port proto : Z) (apiversion : option string)
    (sent : list requests.Request) :
  is_Some (API_METHODS_URL !! default "0.1" apiversion) ->
  exists c,
    DD.__init__ (Some host) (Some port) (Some proto) apiversion sent
      = (Py.Return c, sent) /\
    (proto = DD.__HTTP ->
       DD.__ddurl c = "http://" +:+ host +:+ ":" +:+ Py.str port) /\
    (proto <> DD.__HTTP ->
       DD.__ddurl c = "https://" +:+ host +:+ ":" +:+ Py.str port).
Proof.
  intros [urls Hurls]. unfold DD.__init__. rewrite bind_run. unfold Py.getitem.
  rewrite Hurls. eexists. split; [reflexivity|]. cbn [DD.__ddurl].
  simpl default. split.
  - intros ->. reflexivity.
  - intros Hproto. apply Z.eqb_neq in Hproto. by rewrite Hproto.
Qed.

Lemma constructor_accepts_any_proto_witness :
  (exists c, DD.__init__ (Some "dd.example.org") (Some 443) (Some 2) None []
             = (Py.Return c, []) /\
             DD.__ddurl c = "https://dd.example.org:443") /\
  (exists c, DD.__init__ (Some "dd.example.org") (Some 443) (Some (-1)) None []
             = (Py.Return c, []) /\
             DD.__ddurl c = "https://dd.example.org:443").
Proof.
  split.
  - destruct (constructor_accepts_any_proto "dd.example.org" 443 2 None []
      (ex_intro _ _ eq_refl)) as (c & Hc & _ & Hs).
    exists c. split; [exact Hc|]. apply Hs. discriminate.
  - destruct (constructor_accepts_any_proto "dd.example.org" 443 (-1) None []
      (ex_intro _ _ eq_refl)) as (c & Hc & _ & Hs).
    exists c. split; [exact Hc|]. apply Hs. discriminate.
Defined.

(** ** Further laws *)

Lemma get_is_verb_operation `{W : requests.Outside} method params st :
  DD.get method params st
  = verb_operation requests.GET method (default Py.None_ params) st.
Proof. by destruct params. Qed.

(** On an instance with its version's URL table, a resource operation
    goes on with the path of the table. *)
Lemma resource_run {A : Type} (name path : string) (k : string -> Py.M DD.state A)
    (st : DD.state) :
  versioned (DD.self st) ->
  ({[ "info" := "/info"; "services" := "/services";
      "train" := "/train"; "predict" := "/predict" ]} : gmap string string) !! name
    = Some path ->
  (DD.urls_item name ≫= k) st = k path st.
Proof.
  intros Hv Hpath. by rewrite bind_run, (urls_item_versioned name path st Hv Hpath).
Qed.

(** What a verb operation can raise. *)
Lemma verb_operation_raises `{W : requests.Outside} m method params st e :
  (verb_operation m method params st).1 = Py.Raise e ->
  from_library e /\
  (e = Py.ValueError -> DD.__returntype (DD.self st) = DD.RETURN_JSON).
Proof.
  rewrite verb_operation_run.
  destruct (requests.transmit _ _) as [r|why]; cbn [fst].
  - destruct (requests.is_error_status _); cbn [fst].
    + intros [= <-]. by split.
    + rewrite return_data_run. cbn [fst DD.self].
      destruct (DD.__returntype (DD.self st) =? DD.RETURN_JSON) eqn:Hjson.
      * apply Z.eqb_eq in Hjson.
        destruct (requests.json_loads _); [discriminate|]. intros [= <-]. by split.
      * by destruct (DD.__returntype (DD.self st) =? DD.RETURN_TEXT).
  - intros [= <-]. by split.
Qed.

Lemma dict_keys_5 (k1 k2 k3 k4 k5 : string) (v1 v2 v3 v4 v5 : Py.value) :
  dom (Py.dict [(k1, v1); (k2, v2); (k3, v3); (k4, v4); (k5, v5)])
  = ({[ k1; k2; k3; k4; k5 ]} : gset string).
Proof.
  cbn [Py.dict foldl fst snd]. rewrite !dom_insert_L, dom_empty_L.
  apply set_eq. intros k.
  rewrite !elem_of_union, !elem_of_singleton, elem_of_empty. tauto.
Qed.

Lemma dict_keys_3 (k1 k2 k3 : string) (v1 v2 v3 : Py.value) :
  dom (Py.dict [(k1, v1); (k2, v2); (k3, v3)]) = ({[ k1; k2; k3 ]} : gset string).
Proof.
  cbn [Py.dict foldl fst snd]. rewrite !dom_insert_L, dom_empty_L.
  apply set_eq. intros k.
  rewrite !elem_of_union, !elem_of_singleton, elem_of_empty. tauto.
Qed.

Lemma dict_keys_2 (k1 k2 : string) (v1 v2 : Py.value) :
  dom (Py.dict [(k1, v1); (k2, v2)]) = ({[ k1; k2 ]} : gset string).
Proof.
  cbn [Py.dict foldl fst snd]. rewrite !dom_insert_L, dom_empty_L.
  apply set_eq. intros k.
  rewrite !elem_of_union, !elem_of_singleton, elem_of_empty. tauto.
Qed.

(** ** Further properties of the client *)

(** X1. A transport failure (connection refused, timeout elapsed) leaves
    each verb operation as the library's exception: the request has been
    sent once, nothing is retried, and the instance is as it was. *)
Theorem transport_failure_propagates `{W : requests.Outside}
    (m : requests.verb) (method : string) (params : Py.value)
    (st : DD.state) (why : string) :
  requests.transmit (DD.wire st)
    (verb_request m (DD.__ddurl (DD.self st)) method params) = requests.Failed why ->
  verb_operation m method params st
  = (Py.Raise (Py.RequestException why),
     {| DD.self := DD.self st;
        DD.wire := DD.wire st ++
          [verb_request m (DD.__ddurl (DD.self st)) method params] |}).
Proof. intros Hfail. by rewrite verb_operation_run, Hfail. Qed.

Lemma transport_failure_propagates_witness :
  verb_operation (W := unreachable "connection refused") requests.DELETE
    "/train" Py.None_ fresh
  = (Py.Raise (Py.RequestException "connection refused"),
     {| DD.self := localhost;
        DD.wire := [verb_request requests.DELETE "http://localhost:8080" "/train"
                      Py.None_] |}).
Proof.
  exact (transport_failure_propagates (W := unreachable "connection refused")
    requests.DELETE "/train" Py.None_ fresh "connection refused" eq_refl).
Defined.

(** X2. Whatever the server does (an answer, an error status, a body that
    does not decode, no answer at all), each of [get], [put], [post] and
    [delete] sends exactly one request: its method is the verb's, its URL
    the base URL followed by the path, its timeout 86400 seconds; the
    parameter map is the [params=] argument and no body is given, for GET
    and DELETE as for PUT and POST. The instance is not changed. *)
Theorem verb_sends_one_request `{W : requests.Outside}
    (m : requests.verb) (method : string) (params : Py.value) (st : DD.state) :
  exists rq,
    (verb_operation m method params st).2
      = {| DD.self := DD.self st; DD.wire := DD.wire st ++ [rq] |} /\
    requests.method rq = m /\
    requests.url rq = DD.__ddurl (DD.self st) +:+ method /\
    requests.params rq = params /\
    requests.data rq = Py.None_ /\
    requests.json rq = Py.None_ /\
    requests.timeout rq = Py.Int 86400.
Proof.
  eexists. split; [apply verb_operation_state|]. by cbn.
Qed.

(** X3. [put_service] sends one PUT request to services/{name}. The map it
    passes has exactly the keys [description], [mllib], [type],
    [parameters] and [model]: [mllib] is the library name, [type] the task
    type (['supervised'] when it is left out), and [parameters] the map
    [{input, mllib, output}] of the three parameter dictionaries, whose
    [mllib] is the dictionary of library parameters. *)
Theorem put_service_payload `{W : requests.Outside}
    (sname : string)
    (model description mllib parameters_input parameters_mllib parameters_output : Py.value)
    (mltype : option Py.value) (st : DD.state) :
  versioned (DD.self st) ->
  exists d p : gmap string Py.value,
    DD.wire (DD.put_service sname model description mllib parameters_input
               parameters_mllib parameters_output mltype st).2
      = DD.wire st ++ [verb_request requests.PUT (DD.__ddurl (DD.self st))
                         ("/services/" +:+ sname) (Py.Dict d)] /\
    dom d = {[ "description"; "mllib"; "type"; "parameters"; "model" ]} /\
    d !! "description" = Some description /\
    d !! "mllib" = Some mllib /\
    d !! "type" = Some (default (Py.Str "supervised") mltype) /\
    d !! "parameters" = Some (Py.Dict p) /\
    d !! "model" = Some model /\
    dom p = {[ "input"; "mllib"; "output" ]} /\
    p !! "input" = Some parameters_input /\
    p !! "mllib" = Some parameters_mllib /\
    p !! "output" = Some parameters_output.
Proof.
  intros Hv. eexists _, _. split.
  { unfold DD.put_service.
    rewrite (resource_run "services" "/services" _ st Hv eq_refl).
    by rewrite put_state. }
  split; [apply dict_keys_5|].
  cbn [Py.dict foldl fst snd].
  do 5 (split; [by simplify_map_eq|]).
  split; [apply dict_keys_3|].
  cbn [Py.dict foldl fst snd].
  split; [|split]; by simplify_map_eq.
Qed.

Lemma put_service_payload_witness :
  exists d p : gmap string Py.value,
    DD.wire (DD.put_service (W := answering 201 "null") "digits"
               (Py.Dict {[ "repository" := Py.Str "/tmp/pydd_test" ]})
               (Py.Str "digits classifier") (Py.Str "caffe")
               (Py.Dict ∅) (Py.Dict ∅) (Py.Dict ∅) None fresh).2
      = [verb_request requests.PUT "http://localhost:8080" "/services/digits"
           (Py.Dict d)] /\
    d !! "mllib" = Some (Py.Str "caffe") /\
    d !! "type" = Some (Py.Str "supervised") /\
    d !! "parameters" = Some (Py.Dict p) /\
    p !! "mllib" = Some (Py.Dict ∅).
Proof.
  destruct (put_service_payload (W := answering 201 "null") "digits"
    (Py.Dict {[ "repository" := Py.Str "/tmp/pydd_test" ]})
    (Py.Str "digits classifier") (Py.Str "caffe")
    (Py.Dict ∅) (Py.Dict ∅) (Py.Dict ∅) None fresh eq_refl)
    as (d & p & Hwire & _ & _ & Hmllib & Htype & Hparameters & _ & _ & _ & Hp & _).
  exists d, p. repeat (split; [assumption|]). assumption.
Defined.

(** X4. [post_predict] sends one POST request to the predict path. The map
    it passes has exactly the keys [service], [parameters] and [data], no
    [async] among them: the service name, the map [{input, mllib, output}]
    of the three parameter dictionaries, and the data. *)
Theorem post_predict_payload `{W : requests.Outside}
    (sname : string)
    (data parameters_input parameters_mllib parameters_output : Py.value)
    (st : DD.state) :
  versioned (DD.self st) ->
  exists d p : gmap string Py.value,
    DD.wire (DD.post_predict sname data parameters_input parameters_mllib
               parameters_output st).2
      = DD.wire st ++ [verb_request requests.POST (DD.__ddurl (DD.self st))
                         "/predict" (Py.Dict d)] /\
    dom d = {[ "service"; "parameters"; "data" ]} /\
    d !! "async" = None /\
    d !! "service" = Some (Py.Str sname) /\
    d !! "parameters" = Some (Py.Dict p) /\
    d !! "data" = Some data /\
    dom p = {[ "input"; "mllib"; "output" ]} /\
    p !! "input" = Some parameters_input /\
    p !! "mllib" = Some parameters_mllib /\
    p !! "output" = Some parameters_output.
Proof.
  intros Hv. eexists _, _. split.
  { unfold DD.post_predict.
    rewrite (resource_run "predict" "/predict" _ st Hv eq_refl).
    by rewrite post_state. }
  split; [apply dict_keys_3|].
  cbn [Py.dict foldl fst snd].
  do 4 (split; [by simplify_map_eq|]).
  split; [apply dict_keys_3|].
  cbn [Py.dict foldl fst snd].
  split; [|split]; by simplify_map_eq.
Qed.

Lemma post_predict_payload_witness :
  exists d p : gmap string Py.value,
    DD.wire (DD.post_predict (W := answering 200 "null") "digits"
               (Py.List [Py.Str "x_test.svm"]) (Py.Dict ∅) (Py.Dict ∅) (Py.Dict ∅)
               fresh).2
      = [verb_request requests.POST "http://localhost:8080" "/predict" (Py.Dict d)] /\
    d !! "service" = Some (Py.Str "digits") /\
    d !! "data" = Some (Py.List [Py.Str "x_test.svm"]) /\
    d !! "async" = None.
Proof.
  destruct (post_predict_payload (W := answering 200 "null") "digits"
    (Py.List [Py.Str "x_test.svm"]) (Py.Dict ∅) (Py.Dict ∅) (Py.Dict ∅) fresh eq_refl)
    as (d & p & Hwire & _ & Hasync & Hservice & _ & Hdata & _).
  exists d. exists p. repeat (split; [assumption|]). assumption.
Defined.

(** X5. [delete_train] sends one DELETE request to the train path, with
    exactly the keys [service] and [job] in its parameter map: the service
    name and the job number as a decimal string; the job number is 1 when
    it is left out. The map goes in [params=], no body is given. *)
Theorem delete_train_parameters `{W : requests.Outside}
    (sname : string) (job : option Z) (st : DD.state) :
  versioned (DD.self st) ->
  exists d : gmap string Py.value,
    DD.wire (DD.delete_train sname job st).2
      = DD.wire st ++ [verb_request requests.DELETE (DD.__ddurl (DD.self st))
                         "/train" (Py.Dict d)] /\
    dom d = {[ "service"; "job" ]} /\
    d !! "service" = Some (Py.Str sname) /\
    d !! "job" = Some (Py.Str (Py.str (default 1 job))).
Proof.
  intros Hv. eexists. split.
  { unfold DD.delete_train.
    rewrite (resource_run "train" "/train" _ st Hv eq_refl).
    by rewrite delete_state. }
  split; [apply dict_keys_2|].
  cbn [Py.dict foldl fst snd].
  split; by simplify_map_eq.
Qed.

Lemma delete_train_parameters_witness :
  exists d : gmap string Py.value,
    DD.wire (DD.delete_train (W := answering 200 "null") "digits" (Some (-7)) fresh).2
      = [verb_request requests.DELETE "http://localhost:8080" "/train" (Py.Dict d)] /\
    d !! "job" = Some (Py.Str "-7").
Proof.
  destruct (delete_train_parameters (W := answering 200 "null") "digits"
    (Some (-7)) fresh eq_refl) as (d & Hwire & _ & _ & Hjob).
  exists d. split; [exact Hwire|exact Hjob].
Defined.

(** X6. [info] and [get_service] send one GET request without any
    parameter map, to the info path and to services/{name}; the URL of
    [get_service] is the one [put_service] and [delete_service] use for
    the same name. *)
Theorem info_and_get_service_requests `{W : requests.Outside}
    (sname : string)
    (model description mllib parameters_input parameters_mllib parameters_output : Py.value)
    (mltype clear : option Py.value) (st : DD.state) :
  versioned (DD.self st) ->
  DD.wire (DD.info st).2
    = DD.wire st ++ [verb_request requests.GET (DD.__ddurl (DD.self st))
                       "/info" Py.None_] /\
  DD.wire (DD.get_service sname st).2
    = DD.wire st ++ [verb_request requests.GET (DD.__ddurl (DD.self st))
                       ("/services/" +:+ sname) Py.None_] /\
  (forall rq rq' rq'',
     DD.wire (DD.get_service sname st).2 = DD.wire st ++ [rq] ->
     DD.wire (DD.put_service sname model description mllib parameters_input
                parameters_mllib parameters_output mltype st).2
       = DD.wire st ++ [rq'] ->
     DD.wire (DD.delete_service sname clear st).2 = DD.wire st ++ [rq''] ->
     requests.url rq' = requests.url rq /\ requests.url rq'' = requests.url rq).
Proof.
  intros Hv.
  assert (Hget : DD.wire (DD.get_service sname st).2
    = DD.wire st ++ [verb_request requests.GET (DD.__ddurl (DD.self st))
                       ("/services/" +:+ sname) Py.None_]).
  { unfold DD.get_service.
    rewrite (resource_run "services" "/services" _ st Hv eq_refl).
    by rewrite get_state. }
  split; [|split; [exact Hget|]].
  - unfold DD.info. rewrite (resource_run "info" "/info" _ st Hv eq_refl).
    by rewrite get_state.
  - intros rq rq' rq''. rewrite Hget. unfold DD.put_service, DD.delete_service.
    rewrite !(resource_run "services" "/services" _ st Hv eq_refl).
    rewrite put_state, delete_state. cbn [DD.wire].
    intros Hrq Hrq' Hrq''.
    apply app_inv_head in Hrq, Hrq', Hrq''.
    injection Hrq as <-. injection Hrq' as <-. injection Hrq'' as <-.
    by split.
Qed.

Lemma info_and_get_service_requests_witness :
  DD.wire (DD.get_service (W := answering 200 "null") "digits" fresh).2
  = [verb_request requests.GET "http://localhost:8080" "/services/digits" Py.None_].
Proof.
  exact (proj1 (proj2 (info_and_get_service_requests (W := answering 200 "null")
    "digits" Py.None_ Py.None_ Py.None_ Py.None_ Py.None_ Py.None_ None None
    fresh eq_refl))).
Defined.

(** X7. [delete_service] tests the clear mode with [if clear:]: a clear
    mode that counts as false (the empty string, [False], 0, an empty list
    or dictionary, [None]) is dropped. The call then does what the call
    without a clear mode does, and its request has no parameter map at
    all. *)
Theorem delete_service_drops_false_clear `{W : requests.Outside}
    (sname : string) (clear : Py.value) (st : DD.state) :
  Py.truthy clear = false ->
  versioned (DD.self st) ->
  DD.delete_service sname (Some clear) st = DD.delete_service sname None st /\
  DD.wire (DD.delete_service sname (Some clear) st).2
    = DD.wire st ++ [verb_request requests.DELETE (DD.__ddurl (DD.self st))
                       ("/services/" +:+ sname) Py.None_].
Proof.
  intros Hclear Hv.
  assert (Hsame : DD.delete_service sname (Some clear) st
                  = DD.delete_service sname None st).
  { unfold DD.delete_service. simpl default. by rewrite Hclear. }
  split; [exact Hsame|]. rewrite Hsame. unfold DD.delete_service.
  rewrite (resource_run "services" "/services" _ st Hv eq_refl).
  by rewrite delete_state.
Qed.

Lemma delete_service_drops_false_clear_witness :
  DD.wire (DD.delete_service (W := answering 200 "null") "digits"
             (Some (Py.Str "")) fresh).2
  = [verb_request requests.DELETE "http://localhost:8080" "/services/digits"
       Py.None_].
Proof.
  exact (proj2 (delete_service_drops_false_clear (W := answering 200 "null")
    "digits" (Py.Str "") fresh eq_refl eq_refl)).
Defined.

(** What the calls other than [set_return_format] reduce to on an instance
    with its version's URL table: one verb operation. *)
Lemma perform_is_verb_operation `{W : requests.Outside} (k : call) (st : DD.state) :
  versioned (DD.self st) ->
  (forall f, k <> Set_return_format f) ->
  exists m method params, perform k st = verb_operation m method params st.
Proof.
  intros Hv Hk. destruct k; cbn [perform].
  - by destruct (Hk f).
  - exists requests.GET, method, (default Py.None_ params).
    apply get_is_verb_operation.
  - by exists requests.PUT, method, params.
  - by exists requests.POST, method, params.
  - by exists requests.DELETE, method, params.
  - unfold DD.info. rewrite (resource_run "info" "/info" _ st Hv eq_refl).
    by exists requests.GET, "/info", Py.None_.
  - unfold DD.put_service.
    rewrite (resource_run "services" "/services" _ st Hv eq_refl).
    by eexists requests.PUT, _, _.
  - unfold DD.get_service.
    rewrite (resource_run "services" "/services" _ st Hv eq_refl).
    by eexists requests.GET, _, Py.None_.
  - unfold DD.delete_service.
    rewrite (resource_run "services" "/services" _ st Hv eq_refl).
    by eexists requests.DELETE, _, _.
  - unfold DD.post_train. rewrite (resource_run "train" "/train" _ st Hv eq_refl).
    by eexists requests.POST, _, _.
  - unfold DD.get_train. rewrite (resource_run "train" "/train" _ st Hv eq_refl).
    eexists requests.GET, _, _. apply (get_is_verb_operation _ (Some _)).
  - unfold DD.delete_train. rewrite (resource_run "train" "/train" _ st Hv eq_refl).
    by eexists requests.DELETE, _, _.
  - unfold DD.post_predict.
    rewrite (resource_run "predict" "/predict" _ st Hv eq_refl).
    by eexists requests.POST, _, _.
Qed.

(** A call sends no request or one, after those already sent. *)
Lemma perform_wire `{W : requests.Outside} (k : call) (st : DD.state) :
  DD.wire (perform k st).2 = DD.wire st \/
  exists rq, DD.wire (perform k st).2 = DD.wire st ++ [rq].
Proof.
  assert (Hres : forall name (f : string -> Py.M DD.state Py.value),
    (forall path, exists rq, DD.wire (f path st).2 = DD.wire st ++ [rq]) ->
    DD.wire ((DD.urls_item name ≫= f) st).2 = DD.wire st \/
    exists rq, DD.wire ((DD.urls_item name ≫= f) st).2 = DD.wire st ++ [rq]).
  { intros name f Hf. rewrite bind_run, urls_item_run.
    destruct (DD.__urls (DD.self st) !! name) as [path|]; [right; apply Hf|by left]. }
  destruct k; cbn [perform].
  - left. rewrite set_return_format_run.
    by destruct ((f =? DD.RETURN_JSON) || (f =? DD.RETURN_TEXT) || (f =? DD.RETURN_NONE)).
  - right. rewrite get_state. by eexists.
  - right. rewrite put_state. by eexists.
  - right. rewrite post_state. by eexists.
  - right. rewrite delete_state. by eexists.
  - apply Hres. intros path. rewrite get_state. by eexists.
  - apply Hres. intros path. rewrite put_state. by eexists.
  - apply Hres. intros path. rewrite get_state. by eexists.
  - apply Hres. intros path. rewrite delete_state. by eexists.
  - apply Hres. intros path. rewrite post_state. by eexists.
  - apply Hres. intros path. rewrite get_state. by eexists.
  - apply Hres. intros path. rewrite delete_state. by eexists.
  - apply Hres. intros path. rewrite post_state. by eexists.
Qed.

Lemma same_connection_refl (c : DD.t) : same_connection c c.
Proof. by repeat split. Qed.

Lemma same_connection_trans (c1 c2 c3 : DD.t) :
  same_connection c1 c2 -> same_connection c2 c3 -> same_connection c1 c3.
Proof.
  unfold same_connection. intros (?&?&?&?&?&?) (?&?&?&?&?&?).
  repeat split; congruence.
Qed.

Lemma perform_same_connection `{W : requests.Outside} (k : call) (st : DD.state) :
  same_connection (DD.self st) (DD.self (perform k st).2).
Proof.
  destruct k; try (rewrite perform_keeps_self; [apply same_connection_refl|discriminate]).
  cbn [perform]. rewrite set_return_format_run.
  destruct ((f =? DD.RETURN_JSON) || (f =? DD.RETURN_TEXT) || (f =? DD.RETURN_NONE));
    by repeat split.
Qed.

(** X8. On a constructed instance the calls raise nothing of their own
    but the assertion of [set_return_format]: every other exception is the
    library's (a transport failure, an error status, a body that is no
    JSON document); no call raises [KeyError], and [ValueError] is raised
    only with return type [RETURN_JSON]. *)
Theorem calls_raise_library_exceptions `{W : requests.Outside}
    (k : call) (st : DD.state) (e : Py.exception) :
  versioned (DD.self st) ->
  (perform k st).1 = Py.Raise e ->
  (e = Py.AssertionError /\ exists f, k = Set_return_format f /\ ~ return_type f) \/
  (from_library e /\ (forall f, k <> Set_return_format f) /\
   (e = Py.ValueError -> DD.__returntype (DD.self st) = DD.RETURN_JSON)).
Proof.
  intros Hv Hraise.
  assert (Hcase : (exists f, k = Set_return_format f) \/
                  (forall f, k <> Set_return_format f)).
  { destruct k; try (right; discriminate). left. by eexists. }
  destruct Hcase as [[f ->]|Hk'].
  - left. cbn [perform] in Hraise. rewrite set_return_format_run in Hraise.
    destruct ((f =? DD.RETURN_JSON) || (f =? DD.RETURN_TEXT) || (f =? DD.RETURN_NONE))
      eqn:Hf; [discriminate|].
    injection Hraise as <-. split; [done|]. exists f. split; [done|].
    intros Hrt. apply return_type_test in Hrt. congruence.
  - right.
    destruct (perform_is_verb_operation k st Hv Hk') as (m & method & params & Hrun).
    rewrite Hrun in Hraise. apply verb_operation_raises in Hraise as [Hlib Hjson].
    by repeat split.
Qed.

Lemma calls_raise_library_exceptions_witness :
  (Py.ValueError = Py.AssertionError /\
   exists f, Info = Set_return_format f /\ ~ return_type f) \/
  (from_library Py.ValueError /\ (forall f, Info <> Set_return_format f) /\
   (Py.ValueError = Py.ValueError ->
    DD.__returntype (DD.self fresh) = DD.RETURN_JSON)).
Proof.
  exact (calls_raise_library_exceptions (W := answering 200 "<html>") Info fresh
    Py.ValueError eq_refl eq_refl).
Defined.

(** X9. A program sends at most one request per call, retries nothing and
    forgets nothing: after any sequence of calls the requests sent are
    those sent before, followed by at most as many as there were calls; on
    a constructed instance every call other than [set_return_format] sends
    exactly one, whether it returns or raises. *)
Theorem calls_send_at_most_one_request `{W : requests.Outside}
    (calls : list call) (st : DD.state) :
  (exists more,
     DD.wire (session calls st) = DD.wire st ++ more /\
     (length more <= length calls)%nat) /\
  (versioned (DD.self st) ->
   forall k, (forall f, k <> Set_return_format f) ->
     exists rq, DD.wire (perform k st).2 = DD.wire st ++ [rq]).
Proof.
  split.
  - revert st. induction calls as [|k calls IH]; intros st; cbn [session].
    + exists []. by rewrite app_nil_r.
    + destruct (IH (perform k st).2) as (more & Hmore & Hlen).
      destruct (perform_wire k st) as [Hk|[rq Hk]]; rewrite Hk in Hmore.
      * exists more. split; [exact Hmore|]. cbn [length]. lia.
      * exists (rq :: more). split; [by rewrite Hmore, <- app_assoc|].
        cbn [length]. lia.
  - intros Hv k Hk.
    destruct (perform_is_verb_operation k st Hv Hk) as (m & method & params & ->).
    rewrite verb_operation_state. by eexists.
Qed.

Lemma calls_send_at_most_one_request_witness :
  exists rq,
    DD.wire (perform (W := answering 503 "busy") (Delete_train "digits" None) fresh).2
    = DD.wire fresh ++ [rq].
Proof.
  apply (proj2 (calls_send_at_most_one_request (W := answering 503 "busy") [] fresh)
    eq_refl (Delete_train "digits" None)).
  discriminate.
Defined.

(** X10. The connection of an instance is fixed at construction: after any
    sequence of calls the API version, the URL table, host, port,
    protocol and base URL are those the instance had, so that the URL
    table remains the entry of the API version. *)
Theorem connection_is_immutable `{W : requests.Outside}
    (calls : list call) (st : DD.state) :
  same_connection (DD.self st) (DD.self (session calls st)) /\
  (versioned (DD.self st) -> versioned (DD.self (session calls st))).
Proof.
  assert (Hsame : same_connection (DD.self st) (DD.self (session calls st))).
  { revert st. induction calls as [|k calls IH]; intros st; cbn [session].
    - apply same_connection_refl.
    - eapply same_connection_trans; [apply perform_same_connection|apply IH]. }
  split; [exact Hsame|]. unfold versioned.
  destruct Hsame as (Hversion & Hurls & _). by rewrite <- Hversion, <- Hurls.
Qed.

Lemma connection_is_immutable_witness :
  versioned (DD.self (session (W := answering 200 "null")
    [Set_return_format 2; Info; Set_return_format 9; Delete_service "digits" None]
    fresh)).
Proof.
  exact (proj2 (connection_is_immutable (W := answering 200 "null")
    [Set_return_format 2; Info; Set_return_format 9; Delete_service "digits" None]
    fresh) eq_refl).
Defined.

Lemma perform_wire_determined (W1 W2 : requests.Outside) (k : call)
    (st1 st2 : DD.state) :
  same_connection (DD.self st1) (DD.self st2) ->
  DD.wire st1 = DD.wire st2 ->
  DD.wire (perform (W := W1) k st1).2 = DD.wire (perform (W := W2) k st2).2.
Proof.
  intros (_ & Hurls & _ & _ & _ & Hddurl) Hwire.
  assert (Hres : forall name (f1 f2 : string -> Py.M DD.state Py.value),
    (forall path, DD.wire (f1 path st1).2 = DD.wire (f2 path st2).2) ->
    DD.wire ((DD.urls_item name ≫= f1) st1).2
    = DD.wire ((DD.urls_item name ≫= f2) st2).2).
  { intros name f1 f2 Hf. rewrite !bind_run, !urls_item_run, Hurls.
    destruct (DD.__urls (DD.self st2) !! name) as [path|]; [apply Hf|exact Hwire]. }
  destruct k; cbn [perform];
    try (apply Hres; intros path);
    rewrite ?get_state, ?put_state, ?post_state, ?delete_state; cbn [DD.wire];
    rewrite ?Hddurl, ?Hwire; try reflexivity.
  rewrite !set_return_format_run.
  by destruct ((f =? DD.RETURN_JSON) || (f =? DD.RETURN_TEXT) || (f =? DD.RETURN_NONE)).
Qed.

(** X11. What a program sends depends on its calls and on the connection
    alone: neither the answers of the server nor the return type have a
    part in it. Two runs of the same calls, against any two servers and
    from instances with the same connection, send the same requests. *)
Theorem requests_do_not_depend_on_answers (W1 W2 : requests.Outside)
    (calls : list call) (st1 st2 : DD.state) :
  same_connection (DD.self st1) (DD.self st2) ->
  DD.wire st1 = DD.wire st2 ->
  DD.wire (session (W := W1) calls st1) = DD.wire (session (W := W2) calls st2).
Proof.
  revert st1 st2. induction calls as [|k calls IH]; intros st1 st2 Hsame Hwire;
    cbn [session]; [exact Hwire|].
  apply IH.
  - eapply same_connection_trans; [|apply (perform_same_connection (W := W2))].
    eapply same_connection_trans; [|exact Hsame].
    destruct (perform_same_connection (W := W1) k st1) as (?&?&?&?&?&?).
    by repeat split.
  - by apply perform_wire_determined.
Qed.

Lemma requests_do_not_depend_on_answers_witness :
  DD.wire (session (W := answering 200 "true")
             [Info; Set_return_format 1; Get_service "digits"] fresh)
  = DD.wire (session (W := unreachable "timed out")
             [Info; Set_return_format 1; Get_service "digits"]
             (DD.assign_returntype 2 fresh)).
Proof.
  apply (requests_do_not_depend_on_answers (answering 200 "true")
    (unreachable "timed out")); [by repeat split|reflexivity].
Defined.

(** X12. A return type set with [set_return_format] is the one later calls
    convert with, until the next successful [set_return_format]: after
    [set_return_format f] with a valid [f], a verb operation whose response
    passes the status check returns the conversion for [f]; after a call
    with an invalid value it converts as before; and of two valid calls in
    a row the second one counts. *)
Theorem return_format_applies_to_later_calls `{W : requests.Outside}
    (m : requests.verb) (method : string) (params : Py.value)
    (st : DD.state) (r : requests.Response) (f g : Z) :
  requests.transmit (DD.wire st)
    (verb_request m (DD.__ddurl (DD.self st)) method params) = requests.Answered r ->
  requests.ok r = true ->
  (return_type f ->
     (verb_operation m method params (DD.set_return_format f st).2).1
     = converted f r) /\
  (~ return_type f ->
     (verb_operation m method params (DD.set_return_format f st).2).1
     = converted (DD.__returntype (DD.self st)) r) /\
  (return_type g ->
     (DD.set_return_format g (DD.set_return_format f st).2).2
     = (DD.set_return_format g st).2).
Proof.
  intros Hr Hok. unfold requests.ok in Hok. apply negb_true_iff in Hok.
  rewrite !set_return_format_run.
  split; [|split].
  - intros Hf. apply return_type_test in Hf. rewrite Hf. cbn [snd].
    rewrite verb_operation_run. cbn [DD.assign_returntype DD.self DD.wire DD.__ddurl].
    by rewrite Hr, Hok, return_data_run.
  - intros Hf.
    destruct ((f =? DD.RETURN_JSON) || (f =? DD.RETURN_TEXT) || (f =? DD.RETURN_NONE))
      eqn:Htest; [by apply return_type_test in Htest|].
    cbn [snd]. by rewrite verb_operation_run, Hr, Hok, return_data_run.
  - intros Hg. apply return_type_test in Hg. rewrite Hg. cbn [snd].
    by destruct ((f =? DD.RETURN_JSON) || (f =? DD.RETURN_TEXT) || (f =? DD.RETURN_NONE)).
Qed.

Lemma return_format_applies_to_later_calls_witness :
  (verb_operation (W := answering 200 "true") requests.GET "/info" Py.None_
     (DD.set_return_format DD.RETURN_TEXT fresh).2).1
  = Py.Return (Py.Str "true") /\
  (verb_operation (W := answering 200 "true") requests.GET "/info" Py.None_
     (DD.set_return_format 5 fresh).2).1
  = Py.Return (Py.Bool true).
Proof.
  split.
  - apply (proj1 (return_format_applies_to_later_calls (W := answering 200 "true")
      requests.GET "/info" Py.None_ fresh
      {| requests.status_code := 200; requests.text := "true" |} 1 0
      eq_refl eq_refl)).
    right; left; reflexivity.
  - apply (proj1 (proj2 (return_format_applies_to_later_calls
      (W := answering 200 "true") requests.GET "/info" Py.None_ fresh
      {| requests.status_code := 200; requests.text := "true" |} 5 0
      eq_refl eq_refl))).
    unfold return_type, DD.RETURN_JSON, DD.RETURN_TEXT, DD.RETURN_NONE. lia.
Defined.

(** X13. The script of the module sends one request, a GET of
    http://localhost:8080/info without parameters, whatever was sent
    before. When the answer passes the status check and its body decodes
    as JSON, the script prints the decoded object and nothing else; when
    the script raises, the exception is the library's and nothing is
    printed. *)
Theorem main_gets_info `{W : requests.Outside}
    (sent : list requests.Request) (printed : list Py.value) :
  (main (sent, printed)).2.1
    = sent ++ [verb_request requests.GET "http://localhost:8080" "/info" Py.None_] /\
  (forall r v,
     requests.transmit sent
       (verb_request requests.GET "http://localhost:8080" "/info" Py.None_)
       = requests.Answered r ->
     requests.ok r = true ->
     requests.json_loads (requests.text r) = Some v ->
     (main (sent, printed)).1 = Py.Return tt /\
     (main (sent, printed)).2.2 = printed ++ [v]) /\
  (forall e, (main (sent, printed)).1 = Py.Raise e ->
     from_library e /\ (main (sent, printed)).2.2 = printed).
Proof.
  assert (Hmain : main (sent, printed) =
    match verb_operation requests.GET "/info" Py.None_
            {| DD.self := localhost; DD.wire := sent |} with
    | (Py.Raise e, st) => (Py.Raise e, (DD.wire st, printed))
    | (Py.Return inf, st) => (Py.Return tt, (DD.wire st, printed ++ [inf]))
    end) by reflexivity.
  rewrite Hmain. clear Hmain.
  pose proof (verb_operation_state requests.GET "/info" Py.None_
    {| DD.self := localhost; DD.wire := sent |}) as Hstate.
  split; [|split].
  - destruct (verb_operation _ _ _ _) as [[inf|e] st']; cbn [snd fst] in *;
      by rewrite Hstate.
  - intros r v Hr Hok Hv. unfold requests.ok in Hok. apply negb_true_iff in Hok.
    rewrite verb_operation_run. cbn [DD.self DD.wire DD.__ddurl localhost].
    rewrite Hr, Hok, return_data_run. cbn [DD.self DD.__returntype localhost].
    change (0 =? DD.RETURN_JSON) with true. cbn match. by rewrite Hv.
  - intros e.
    destruct (verb_operation _ _ _ _) as [[inf|e'] st'] eqn:Hrun; cbn [snd fst];
      [discriminate|].
    intros [= ->]. split; [|done].
    apply (verb_operation_raises requests.GET "/info" Py.None_
      {| DD.self := localhost; DD.wire := sent |}).
    by rewrite Hrun.
Qed.

Lemma main_gets_info_witness :
  (main (W := answering 200 "true") ([], [])).1 = Py.Return tt /\
  (main (W := answering 200 "true") ([], [])).2.2 = [Py.Bool true].
Proof.
  exact (proj1 (proj2 (main_gets_info (W := answering 200 "true") [] []))
    {| requests.status_code := 200; requests.text := "true" |} (Py.Bool true)
    eq_refl eq_refl eq_refl).
Defined.
